(** * gonzalo123/grpc: the Api service, its client and their contract

    A shallow embedding of [src/api.py] (the servicer [ApiServer] and the
    client [ApiClient]) together with the properties the specification
    states about them.

    - Python integers are unbounded: [Z].
    - Python strings: [string]; an f-string is the concatenation of its
      literal parts and of the formatted values.
    - [range(a, b)] is lazy: it is modelled by its iterator, which (as in
      CPython) holds the next value and the number of values left.
    - A generator function is a state machine over its suspended frame;
      one call of [next] runs the body up to the next [yield].
    - The stub of the client talks to the network and may raise: its calls
      return an [outcome].
    - The constructor of a request checks an integer against the range of
      the type its field is declared with, and raises when it is out of
      range; the declared type is a parameter, [Schema]. *)

From Stdlib Require Import ZArith List String Lia Bool.
From Stdlib Require Import DecimalString DecimalPos DecimalZ.
Import ListNotations.

Local Open Scope Z_scope.
Local Open Scope string_scope.

(** ** Python built-ins used by the source *)

Module Py.

(** [str(i)] for an integer: its decimal numeral, with a leading minus
    sign when negative. *)
Definition str (i : Z) : string := NilZero.string_of_int (Z.to_int i).

(** An f-string joins its parts (literal text and formatted fields)
    without separator. *)
Definition fstring (parts : list string) : string :=
  fold_right String.append EmptyString parts.

(** The iterator of a [range] with step 1: the value [next] will give,
    and how many values are left. *)
Record range_iterator : Type :=
  { cursor : Z; remaining : nat }.

(** [iter(range(start, stop))]: the values [start, start+1, ...] below
    [stop]; there are [max 0 (stop - start)] of them. *)
Definition range (start stop : Z) : range_iterator :=
  {| cursor := start; remaining := Z.to_nat (stop - start) |}.

(** [next(it)]: [None] stands for [StopIteration]. *)
Definition next (it : range_iterator) : option (Z * range_iterator) :=
  match remaining it with
  | O => None
  | S n => Some (cursor it, {| cursor := cursor it + 1; remaining := n |})
  end.

(** The statement [for i in it: s = body i s], run to completion from
    the local state [s]. *)
Fixpoint for_loop {St : Type} (n : nat) (i : Z)
         (body : Z -> St -> St) (s : St) : St :=
  match n with
  | O => s
  | S n' => for_loop n' (i + 1) body (body i s)
  end.

Definition for_in {St : Type} (it : range_iterator)
           (body : Z -> St -> St) (s : St) : St :=
  for_loop (remaining it) (cursor it) body s.

End Py.

(** ** Messages

    The message classes come from [api_pb2], which is generated from the
    schema and is not among the sources. *)

(** Modelled from the spec: [HelloRequest], with its field [name], a
    string (data model, section 3); the class itself is in [api_pb2]. *)
Module HelloRequest.
Record t : Type := mk { name : string }.
End HelloRequest.

(** Modelled from the spec: [Hello], with its field [message], a string;
    the class itself is in [api_pb2]. *)
Module Hello.
Record t : Type := mk { message : string }.
End Hello.

(** Modelled from the spec: [ApiRequest], with its field [length], an
    integer; the class itself is in [api_pb2]. *)
Module ApiRequest.
Record t : Type := mk { length : Z }.
End ApiRequest.

(** Modelled from the spec: [Item], with its fields [id], an integer, and
    [name], a string; the class itself is in [api_pb2]. *)
Module Item.
Record t : Type := mk { id : Z; name : string }.
End Item.

(** Modelled from the spec: [Items], with its field [items], an ordered
    sequence of [Item]; the class itself is in [api_pb2]. *)
Module Items.
Record t : Type := mk { items : list Item.t }.
End Items.

(** ** The servicer: [class ApiServer(ApiServicer)] *)

Module ApiServer.

(** An instance has no attribute. *)
Inductive t : Type := new.

(** The frame of the generator returned by [getStream]: the body has not
    started, or it is suspended at the [yield] inside the loop, or it has
    returned. *)
Inductive generator : Type :=
| Created (request : ApiRequest.t)
| Suspended (it : Py.range_iterator)
| Finished.

Section Methods.

(** The [context] object grpc hands to every method. *)
Variable ServicerContext : Type.

(** [Item(id=i, name=f'name {i}')] *)
Definition item (i : Z) : Item.t :=
  Item.mk i (Py.fstring ["name "; Py.str i]).

(** <<
    def getAll(self, request, context):
        data = []
        for i in range(1, request.length + 1):
            data.append(Item(id=i, name=f'name {i}'))
        return Items(items=data)
    >> *)
Definition getAll (self : t) (request : ApiRequest.t)
           (context : ServicerContext) : Items.t :=
  let data := [] in
  let data :=
    Py.for_in (Py.range 1 (ApiRequest.length request + 1))
              (fun i data => (data ++ [item i])%list) data in
  Items.mk data.

(** <<
    def getStream(self, request, context):
        for i in range(1, request.length + 1):
            yield Item(id=i, name=f'name {i}')
    >>
    Calling the method only creates the generator. *)
Definition getStream (self : t) (request : ApiRequest.t)
           (context : ServicerContext) : generator :=
  Created request.

(** One turn of the loop of [getStream]: ask the range iterator for
    the next [i]; yield the item and suspend, or leave the loop and
    return. *)
Definition loop_turn (it : Py.range_iterator)
  : option Item.t * generator :=
  match Py.next it with
  | Some (i, it') => (Some (item i), Suspended it')
  | None => (None, Finished)
  end.

(** [next(g)]: the item yielded, or [None] for [StopIteration], and
    the frame afterwards. *)
Definition next (g : generator) : option Item.t * generator :=
  match g with
  | Created request =>
      loop_turn (Py.range 1 (ApiRequest.length request + 1))
  | Suspended it => loop_turn it
  | Finished => (None, Finished)
  end.

(** <<
    def sayHello(self, request, context):
        return Hello(message=f'Hello {request.name}!')
    >> *)
Definition sayHello (self : t) (request : HelloRequest.t)
           (context : ServicerContext) : Hello.t :=
  Hello.mk (Py.fstring ["Hello "; HelloRequest.name request; "!"]).

End Methods.

Arguments getAll {ServicerContext} self request context.
Arguments getStream {ServicerContext} self request context.
Arguments sayHello {ServicerContext} self request context.

(** What a consumer receives from a generator. *)
Inductive produces : generator -> list Item.t -> Prop :=
| produces_stop g g' :
    next g = (None, g') -> produces g []
| produces_yield g x g' xs :
    next g = (Some x, g') -> produces g' xs -> produces g (x :: xs).

(** Consuming a generator until [StopIteration], with at most [fuel]
    calls of [next]; [None] when the fuel does not reach the end. *)
Fixpoint collect (fuel : nat) (g : generator) : option (list Item.t) :=
  match fuel with
  | O => None
  | S fuel' =>
      match next g with
      | (None, _) => Some []
      | (Some x, g') =>
          match collect fuel' g' with
          | Some xs => Some (x :: xs)
          | None => None
          end
      end
  end.

End ApiServer.

(** ** Calls that may raise

    A call through the stub either returns a response or raises the
    transport's error; the client has no [try], so an error raised by the
    stub leaves the client method as it is. *)

Inductive outcome (E A : Type) : Type :=
| Returned (a : A)
| Raised (e : E).

Arguments Returned {E A} a.
Arguments Raised {E A} e.

Definition bind {E A B : Type} (c : outcome E A) (k : A -> outcome E B)
  : outcome E B :=
  match c with
  | Returned a => k a
  | Raised e => Raised e
  end.

Notation "x <- c ;; k" := (bind c (fun x => k))
  (at level 61, c at next level, right associativity).

(** ** Integer fields of messages, and the constructor of a request *)

Module Pb.

(** The integer types a field can be declared with, up to their range
    ([sint32] and [sfixed32] range as [int32], [sint64] and [sfixed64] as
    [int64], [fixed32] as [uint32], [fixed64] as [uint64]). *)
Inductive int_type : Type := int32 | int64 | uint32 | uint64.

Definition min_value (ty : int_type) : Z :=
  match ty with
  | int32 => - 2 ^ 31
  | int64 => - 2 ^ 63
  | uint32 | uint64 => 0
  end.

Definition max_value (ty : int_type) : Z :=
  match ty with
  | int32 => 2 ^ 31 - 1
  | int64 => 2 ^ 63 - 1
  | uint32 => 2 ^ 32 - 1
  | uint64 => 2 ^ 64 - 1
  end.

(** Whether a field of type [ty] can hold the integer [v]. *)
Definition fits (ty : int_type) (v : Z) : bool :=
  ((min_value ty <=? v) && (v <=? max_value ty))%Z.

End Pb.

(** What the client needs of its environment and the sources do not
    show: the type [length] is declared with in the schema of
    [ApiRequest], and, among the exceptions [E], the [ValueError] a
    constructor raises for a value its field cannot hold. *)
Class Schema (E : Type) : Type :=
  { length_type : Pb.int_type;
    ValueError : E }.

(** [ApiRequest(length=length)]: the request, or [ValueError] when
    [length] is out of the range of the field. *)
Definition new_ApiRequest {E : Type} {schema : Schema E} (length : Z)
  : outcome E ApiRequest.t :=
  if Pb.fits length_type length
  then Returned (ApiRequest.mk length)
  else Raised ValueError.

(** ** The stub: [api_pb2_grpc.ApiStub]

    The stub is generated from the schema and is not among the sources:
    the client is written against its three methods, whatever they do.
    [Stream] is the type of the response iterator of a streaming call. *)

Module ApiStub.
Record t (E Stream : Type) : Type := mk
  { sayHello : HelloRequest.t -> outcome E Hello.t;
    getAll : ApiRequest.t -> outcome E Items.t;
    getStream : ApiRequest.t -> outcome E Stream }.
Arguments mk {E Stream} _ _ _.
Arguments sayHello {E Stream} _ _.
Arguments getAll {E Stream} _ _.
Arguments getStream {E Stream} _ _.
End ApiStub.

(** ** The client: [class ApiClient] *)

Module ApiClient.

Section Client.

(** [RpcError]: the exceptions a method of the client may raise, those of
    the stub and [ValueError]. *)
Variables RpcError Stream Channel : Type.
Context {schema : Schema RpcError}.

(** [grpc.insecure_channel] and the constructor of the stub. *)
Variable insecure_channel : string -> Channel.
Variable ApiStub_new : Channel -> ApiStub.t RpcError Stream.

Record t : Type := mk { client : ApiStub.t RpcError Stream }.

(** <<
    def __init__(self, target):
        channel = grpc.insecure_channel(target)
        self.client = ApiStub(channel)
    >> *)
Definition init (target : string) : t :=
  let channel := insecure_channel target in
  {| client := ApiStub_new channel |}.

(** <<
    def sayHello(self, name):
        response = self.client.sayHello(HelloRequest(name=name))
        return response.message
    >> *)
Definition sayHello (self : t) (name : string)
  : outcome RpcError string :=
  response <- ApiStub.sayHello (client self) (HelloRequest.mk name) ;;
  Returned (Hello.message response).

(** <<
    def getAll(self, length):
        response = self.client.getAll(ApiRequest(length=length))
        return response.items
    >> *)
Definition getAll (self : t) (length : Z)
  : outcome RpcError (list Item.t) :=
  request <- new_ApiRequest length ;;
  response <- ApiStub.getAll (client self) request ;;
  Returned (Items.items response).

(** <<
    def getStream(self, length):
        response = self.client.getStream(ApiRequest(length=length))
        return response
    >> *)
Definition getStream (self : t) (length : Z)
  : outcome RpcError Stream :=
  request <- new_ApiRequest length ;;
  response <- ApiStub.getStream (client self) request ;;
  Returned response.

End Client.

Arguments mk {RpcError Stream} client.
Arguments client {RpcError Stream} t.
Arguments init {RpcError Stream Channel} insecure_channel ApiStub_new target.
Arguments sayHello {RpcError Stream} self name.
Arguments getAll {RpcError Stream schema} self length.
Arguments getStream {RpcError Stream schema} self length.

End ApiClient.

(** ** The client composed with the service

    A stub whose calls reach the servicer and come back unchanged: the
    request the client built is the request the method receives, and what
    the method returns is the response the client reads. *)

Definition served_stub {E Ctx : Type} (server : ApiServer.t) (context : Ctx)
  : ApiStub.t E ApiServer.generator :=
  ApiStub.mk
    (fun request => Returned (ApiServer.sayHello server request context))
    (fun request => Returned (ApiServer.getAll server request context))
    (fun request => Returned (ApiServer.getStream server request context)).

(** ** A consumer that stops early

    A consumer need not read a stream to its end: [take k g] asks the
    generator for at most [k] items, stopping at [StopIteration], and
    gives the items read and the generator as it is left. *)

Fixpoint take (k : nat) (g : ApiServer.generator)
  : list Item.t * ApiServer.generator :=
  match k with
  | O => ([], g)
  | S k' =>
      match ApiServer.next g with
      | (None, g') => ([], g')
      | (Some x, g') =>
          let (xs, g'') := take k' g' in (x :: xs, g'')
      end
  end.

(** ** The page: [app.py] *)

Module App.

Section Home.

Variables E Stream Html : Type.
Context {schema : Schema E}.

(** The keyword arguments [home] hands to the template: [name], [items]
    and [items2]. *)
Record context : Type := mk
  { name : string; items : list Item.t; items2 : Stream }.

(** flask's [render_template]; the templates are not among the sources,
    and rendering may raise. *)
Variable render_template : string -> context -> outcome E Html.

(** <<
    @app.route("/")
    def home():
        api = app.config["api"]
        return render_template(
            "index.html",
            name=api.sayHello("Gonzalo"),
            items=api.getAll(length=10),
            items2=api.getStream(length=5)
        )
    >>
    [api] is the client the module stored in [app.config] when it was
    loaded. The arguments are evaluated from left to right, then the
    template is rendered. *)
Definition home (api : ApiClient.t E Stream) : outcome E Html :=
  name <- ApiClient.sayHello api "Gonzalo" ;;
  items <- ApiClient.getAll api 10 ;;
  items2 <- ApiClient.getStream api 5 ;;
  render_template "index.html"
                  {| name := name; items := items; items2 := items2 |}.

End Home.

Arguments mk {Stream} name items items2.
Arguments name {Stream} c.
Arguments items {Stream} c.
Arguments items2 {Stream} c.
Arguments home {E Stream Html schema} render_template api.

End App.

(** ** Schemas to run the client on

    One schema for each type [length] can be declared with; the
    exceptions are named by strings. *)

Definition schema_with (ty : Pb.int_type) : Schema string :=
  {| length_type := ty; ValueError := "ValueError" |}.

(** * Properties *)

(** ** The range iterator and the two loops over it *)

(** The items the loops build from an iterator with [n] values left whose
    next value is [i]. *)
Fixpoint items_from (n : nat) (i : Z) : list Item.t :=
  match n with
  | O => []
  | S n' => ApiServer.item i :: items_from n' (i + 1)
  end.

Lemma append_empty_r (s : string) : s ++ "" = s.
Proof.
  induction s as [|c s IH]; simpl; [reflexivity | now rewrite IH].
Qed.

Lemma fstring_two (a b : string) : Py.fstring [a; b] = a ++ b.
Proof. unfold Py.fstring; simpl. now rewrite append_empty_r. Qed.

Lemma fstring_three (a b c : string) : Py.fstring [a; b; c] = a ++ b ++ c.
Proof. unfold Py.fstring; simpl. now rewrite append_empty_r. Qed.

Lemma item_id (i : Z) : Item.id (ApiServer.item i) = i.
Proof. reflexivity. Qed.

Lemma item_name (i : Z) :
  Item.name (ApiServer.item i) = "name " ++ Py.str i.
Proof. exact (fstring_two "name " (Py.str i)). Qed.

(** The [for] statement is the loop "ask [next]; stop, or run the body and
    go on". *)
Lemma for_in_next {St : Type} (it : Py.range_iterator)
      (body : Z -> St -> St) (s : St) :
  Py.for_in it body s =
  match Py.next it with
  | None => s
  | Some (i, it') => Py.for_in it' body (body i s)
  end.
Proof.
  destruct it as [i [|n]]; reflexivity.
Qed.

Lemma range_length_request (length : Z) :
  Py.range 1 (length + 1) =
  {| Py.cursor := 1; Py.remaining := Z.to_nat length |}.
Proof.
  unfold Py.range. f_equal. f_equal. lia.
Qed.

(** The appending loop of [getAll] extends [data] by [items_from]. *)
Lemma for_loop_append (n : nat) :
  forall (i : Z) (data : list Item.t),
    Py.for_loop n i (fun i data => (data ++ [ApiServer.item i])%list) data
    = (data ++ items_from n i)%list.
Proof.
  induction n as [|n IH]; intros i data; simpl.
  - now rewrite app_nil_r.
  - rewrite IH, <- app_assoc. reflexivity.
Qed.

Lemma getAll_items {Ctx : Type} (self : ApiServer.t)
      (request : ApiRequest.t) (context : Ctx) :
  Items.items (ApiServer.getAll self request context)
  = items_from (Z.to_nat (ApiRequest.length request)) 1.
Proof.
  unfold ApiServer.getAll; simpl Items.items.
  rewrite range_length_request. unfold Py.for_in; simpl.
  now rewrite for_loop_append.
Qed.

(** ** What [items_from] contains *)

Lemma items_from_length (n : nat) :
  forall i, List.length (items_from n i) = n.
Proof.
  induction n as [|n IH]; intros i; simpl; [reflexivity | now rewrite IH].
Qed.

Lemma items_from_nth (n : nat) :
  forall (i : Z) (k : nat),
    (k < n)%nat ->
    nth_error (items_from n i) k = Some (ApiServer.item (i + Z.of_nat k)).
Proof.
  induction n as [|n IH]; intros i k Hk; [lia|].
  destruct k as [|k]; simpl.
  - do 2 f_equal. lia.
  - rewrite IH by lia. do 2 f_equal. lia.
Qed.

Lemma items_from_nth_inv (n : nat) (i : Z) (k : nat) (x : Item.t) :
  nth_error (items_from n i) k = Some x ->
  (k < n)%nat /\ x = ApiServer.item (i + Z.of_nat k).
Proof.
  intros H.
  assert (Hk : (k < n)%nat).
  { rewrite <- (items_from_length n i). apply nth_error_Some. congruence. }
  split; [exact Hk|].
  rewrite items_from_nth in H by exact Hk. congruence.
Qed.

Lemma items_from_ids (n : nat) :
  forall s : nat,
    map Item.id (items_from n (Z.of_nat s)) = map Z.of_nat (seq s n).
Proof.
  induction n as [|n IH]; intros s; simpl; [reflexivity|].
  f_equal. rewrite <- IH. do 2 f_equal. lia.
Qed.

Lemma items_from_names (n : nat) :
  forall i,
    Forall (fun x => Item.name x = "name " ++ Py.str (Item.id x))
           (items_from n i).
Proof.
  induction n as [|n IH]; intros i; simpl; constructor.
  - apply item_name.
  - apply IH.
Qed.

Lemma items_from_firstn (m : nat) :
  forall (n : nat) (i : Z),
    (m <= n)%nat -> firstn m (items_from n i) = items_from m i.
Proof.
  induction m as [|m IH]; intros n i Hmn; [reflexivity|].
  destruct n as [|n]; [lia|]. simpl.
  f_equal. apply IH. lia.
Qed.

Lemma items_from_In (n : nat) :
  forall (i : Z) (x : Item.t),
    In x (items_from n i) -> x = ApiServer.item (Item.id x).
Proof.
  induction n as [|n IH]; intros i x; simpl; [tauto|].
  intros [<- | H]; [reflexivity | eauto].
Qed.

(** ** The generator of [getStream] *)

Lemma next_suspended (i : Z) (n : nat) :
  ApiServer.next (ApiServer.Suspended {| Py.cursor := i; Py.remaining := S n |})
  = (Some (ApiServer.item i),
     ApiServer.Suspended {| Py.cursor := i + 1; Py.remaining := n |}).
Proof. reflexivity. Qed.

Lemma next_exhausted (i : Z) :
  ApiServer.next (ApiServer.Suspended {| Py.cursor := i; Py.remaining := O |})
  = (None, ApiServer.Finished).
Proof. reflexivity. Qed.

(** The first [next] enters the loop: from there on the new generator
    behaves as one suspended before the first value of the range. *)
Lemma next_created (request : ApiRequest.t) :
  ApiServer.next (ApiServer.Created request)
  = ApiServer.next
      (ApiServer.Suspended
         {| Py.cursor := 1;
            Py.remaining := Z.to_nat (ApiRequest.length request) |}).
Proof.
  simpl. now rewrite range_length_request.
Qed.

Lemma produces_suspended (n : nat) :
  forall i,
    ApiServer.produces
      (ApiServer.Suspended {| Py.cursor := i; Py.remaining := n |})
      (items_from n i).
Proof.
  induction n as [|n IH]; intros i; simpl.
  - eapply ApiServer.produces_stop. apply next_exhausted.
  - eapply ApiServer.produces_yield; [apply next_suspended | apply IH].
Qed.

Lemma collect_suspended (n : nat) :
  forall (i : Z) (fuel : nat),
    (n < fuel)%nat ->
    ApiServer.collect fuel
      (ApiServer.Suspended {| Py.cursor := i; Py.remaining := n |})
    = Some (items_from n i).
Proof.
  induction n as [|n IH]; intros i fuel Hf;
    (destruct fuel as [|fuel]; [lia|]).
  - reflexivity.
  - cbn [ApiServer.collect]. rewrite next_suspended, IH by lia. reflexivity.
Qed.

(** The step relation is functional: a generator produces one sequence. *)
Lemma produces_functional (g : ApiServer.generator) (xs : list Item.t) :
  ApiServer.produces g xs ->
  forall ys, ApiServer.produces g ys -> xs = ys.
Proof.
  induction 1 as [g g' Hn | g x g' xs Hn _ IH]; intros ys Hys;
    inversion Hys as [g0 g0' Hn' | g0 y g0' ys' Hn' Hys']; subst;
    rewrite Hn in Hn'; try discriminate.
  - reflexivity.
  - inversion Hn'; subst. f_equal. now apply IH.
Qed.

(** [collect] follows the step relation. *)
Lemma collect_produces (fuel : nat) :
  forall g xs, ApiServer.collect fuel g = Some xs -> ApiServer.produces g xs.
Proof.
  induction fuel as [|fuel IH]; intros g xs; simpl; [discriminate|].
  destruct (ApiServer.next g) as [[x|] g'] eqn:Hn.
  - destruct (ApiServer.collect fuel g') as [xs'|] eqn:Hc; [|discriminate].
    intros [= <-]. eapply ApiServer.produces_yield; eauto.
  - intros [= <-]. eapply ApiServer.produces_stop; eauto.
Qed.

Lemma getStream_produces {Ctx : Type} (self : ApiServer.t)
      (request : ApiRequest.t) (context : Ctx) :
  ApiServer.produces (ApiServer.getStream self request context)
                     (items_from (Z.to_nat (ApiRequest.length request)) 1).
Proof.
  unfold ApiServer.getStream.
  pose proof (produces_suspended (Z.to_nat (ApiRequest.length request)) 1) as H.
  inversion H as [g g' Hn Hg Hxs | g x g' xs Hn Hp Hg Hxs].
  - eapply ApiServer.produces_stop. rewrite next_created. exact Hn.
  - eapply ApiServer.produces_yield; [rewrite next_created; exact Hn | exact Hp].
Qed.

Lemma getStream_collect {Ctx : Type} (self : ApiServer.t)
      (request : ApiRequest.t) (context : Ctx) (fuel : nat) :
  (Z.to_nat (ApiRequest.length request) < fuel)%nat ->
  ApiServer.collect fuel (ApiServer.getStream self request context)
  = Some (items_from (Z.to_nat (ApiRequest.length request)) 1).
Proof.
  intros Hf. unfold ApiServer.getStream.
  rewrite <- (collect_suspended _ 1 fuel Hf).
  destruct fuel as [|fuel]; [lia|].
  cbn [ApiServer.collect]. now rewrite next_created.
Qed.

(** * The claims of the specification *)

(** ** The service *)

(** C1. For every length >= 0, the [Items] that [getAll] returns for a
    request of that length holds exactly [length] entries, their ids are
    1, 2, ..., length in that order, and the name of every entry is
    "name " followed by the decimal text of its id. *)
Theorem getAll_items_one_to_length :
  forall (Ctx : Type) (self : ApiServer.t) (context : Ctx) (length : Z),
    0 <= length ->
    let its :=
      Items.items (ApiServer.getAll self (ApiRequest.mk length) context) in
    Z.of_nat (List.length its) = length /\
    map Item.id its = map Z.of_nat (seq 1 (Z.to_nat length)) /\
    Forall (fun x => Item.name x = "name " ++ Py.str (Item.id x)) its.
Proof.
  intros Ctx self context length Hlen its. subst its.
  rewrite getAll_items. simpl ApiRequest.length.
  repeat split.
  - rewrite items_from_length. lia.
  - exact (items_from_ids (Z.to_nat length) 1).
  - apply items_from_names.
Qed.

Lemma getAll_items_one_to_length_witness :
  0 <= 3 /\
  let its :=
    Items.items (ApiServer.getAll ApiServer.new (ApiRequest.mk 3) tt) in
  Z.of_nat (List.length its) = 3 /\
  map Item.id its = map Z.of_nat (seq 1 (Z.to_nat 3)) /\
  Forall (fun x => Item.name x = "name " ++ Py.str (Item.id x)) its.
Proof.
  split; [lia|].
  apply (getAll_items_one_to_length unit ApiServer.new tt 3). lia.
Defined.

(** C2. For every string [name] (the empty string and strings with
    special characters included), [sayHello] returns a [Hello] whose
    message is "Hello " followed by the name and "!". The method is a
    total function of its request: there is no input on which it fails. *)
Theorem sayHello_message :
  forall (Ctx : Type) (self : ApiServer.t) (context : Ctx) (name : string),
    Hello.message (ApiServer.sayHello self (HelloRequest.mk name) context)
    = "Hello " ++ name ++ "!".
Proof.
  intros Ctx self context name.
  unfold ApiServer.sayHello. simpl Hello.message. simpl HelloRequest.name.
  exact (fstring_three "Hello " name "!").
Qed.

(** C3. For every length >= 0, the generator of [getStream] produces, item
    by item and in the same order, the [items] of [getAll] for the same
    request: it is the sequence of the step relation, the only one, and
    what consuming the generator gives as soon as the fuel exceeds the
    length. *)
Theorem getStream_same_sequence_as_getAll :
  forall (Ctx : Type) (self : ApiServer.t) (context : Ctx) (length : Z),
    0 <= length ->
    let g := ApiServer.getStream self (ApiRequest.mk length) context in
    let its :=
      Items.items (ApiServer.getAll self (ApiRequest.mk length) context) in
    ApiServer.produces g its /\
    (forall xs, ApiServer.produces g xs -> xs = its) /\
    (forall fuel, (Z.to_nat length < fuel)%nat ->
                  ApiServer.collect fuel g = Some its).
Proof.
  intros Ctx self context length _ g its. subst g its.
  rewrite getAll_items.
  pose proof (getStream_produces self (ApiRequest.mk length) context) as Hp.
  repeat split.
  - exact Hp.
  - intros xs Hxs. exact (produces_functional _ _ Hxs _ Hp).
  - intros fuel Hf. now apply getStream_collect.
Qed.

Lemma getStream_same_sequence_as_getAll_witness :
  0 <= 4 /\
  let g := ApiServer.getStream ApiServer.new (ApiRequest.mk 4) tt in
  let its :=
    Items.items (ApiServer.getAll ApiServer.new (ApiRequest.mk 4) tt) in
  ApiServer.produces g its /\
  (forall xs, ApiServer.produces g xs -> xs = its) /\
  (forall fuel, (Z.to_nat 4 < fuel)%nat ->
                ApiServer.collect fuel g = Some its).
Proof.
  split; [lia|].
  apply (getStream_same_sequence_as_getAll unit ApiServer.new tt 4). lia.
Defined.

(** C4. For every length < 0, [getAll] returns an [Items] with no item and
    the generator of [getStream] stops at its first [next], so the stream
    is empty; both are results, not errors. *)
Theorem negative_length_gives_no_item :
  forall (Ctx : Type) (self : ApiServer.t) (context : Ctx) (length : Z),
    length < 0 ->
    let g := ApiServer.getStream self (ApiRequest.mk length) context in
    ApiServer.getAll self (ApiRequest.mk length) context = Items.mk [] /\
    ApiServer.next g = (None, ApiServer.Finished) /\
    ApiServer.produces g [] /\
    (forall fuel, (0 < fuel)%nat -> ApiServer.collect fuel g = Some []).
Proof.
  intros Ctx self context length Hneg g. subst g.
  assert (Hz : Z.to_nat length = O) by lia.
  assert (Hnext : ApiServer.next
                    (ApiServer.getStream self (ApiRequest.mk length) context)
                  = (None, ApiServer.Finished)).
  { unfold ApiServer.getStream. rewrite next_created.
    simpl ApiRequest.length. rewrite Hz. apply next_exhausted. }
  repeat split.
  - unfold ApiServer.getAll. simpl ApiRequest.length.
    rewrite range_length_request, Hz. reflexivity.
  - exact Hnext.
  - eapply ApiServer.produces_stop. exact Hnext.
  - intros [|fuel] Hf; [lia|].
    cbn [ApiServer.collect]. now rewrite Hnext.
Qed.

Lemma negative_length_gives_no_item_witness :
  -7 < 0 /\
  let g := ApiServer.getStream ApiServer.new (ApiRequest.mk (-7)) tt in
  ApiServer.getAll ApiServer.new (ApiRequest.mk (-7)) tt = Items.mk [] /\
  ApiServer.next g = (None, ApiServer.Finished) /\
  ApiServer.produces g [] /\
  (forall fuel, (0 < fuel)%nat -> ApiServer.collect fuel g = Some []).
Proof.
  split; [lia|].
  apply (negative_length_gives_no_item unit ApiServer.new tt (-7)). lia.
Defined.

(** C5. For length 0, [getAll] returns an [Items] with no item and the
    generator of [getStream] produces no item before it stops; both are
    results, not errors. *)
Theorem zero_length_gives_no_item :
  forall (Ctx : Type) (self : ApiServer.t) (context : Ctx),
    let g := ApiServer.getStream self (ApiRequest.mk 0) context in
    ApiServer.getAll self (ApiRequest.mk 0) context = Items.mk [] /\
    ApiServer.next g = (None, ApiServer.Finished) /\
    ApiServer.produces g [] /\
    ApiServer.collect 1 g = Some [].
Proof.
  intros Ctx self context g. subst g.
  repeat split.
  eapply ApiServer.produces_stop. reflexivity.
Qed.

(** C6. The three operations are deterministic. Two invocations with the
    same request, whatever the servicer instances and the contexts they
    run with, return the same [Hello], the same [Items], and generators
    that produce the same sequence (and consume alike under any fuel).
    The name of an item is a function of its id: two items the service
    builds with the same id, for any requests, have the same name. *)
Theorem service_operations_deterministic :
  forall (Ctx1 Ctx2 : Type) (self1 self2 : ApiServer.t)
         (context1 : Ctx1) (context2 : Ctx2),
    (forall request,
        ApiServer.sayHello self1 request context1
        = ApiServer.sayHello self2 request context2) /\
    (forall request,
        ApiServer.getAll self1 request context1
        = ApiServer.getAll self2 request context2) /\
    (forall request xs ys,
        ApiServer.produces (ApiServer.getStream self1 request context1) xs ->
        ApiServer.produces (ApiServer.getStream self2 request context2) ys ->
        xs = ys) /\
    (forall request fuel,
        ApiServer.collect fuel (ApiServer.getStream self1 request context1)
        = ApiServer.collect fuel (ApiServer.getStream self2 request context2)) /\
    (forall request1 request2 x y,
        In x (Items.items (ApiServer.getAll self1 request1 context1)) ->
        In y (Items.items (ApiServer.getAll self2 request2 context2)) ->
        Item.id x = Item.id y -> Item.name x = Item.name y) /\
    (forall request1 request2 xs ys x y,
        ApiServer.produces (ApiServer.getStream self1 request1 context1) xs ->
        ApiServer.produces (ApiServer.getStream self2 request2 context2) ys ->
        In x xs -> In y ys ->
        Item.id x = Item.id y -> Item.name x = Item.name y).
Proof.
  intros Ctx1 Ctx2 self1 self2 context1 context2.
  split; [reflexivity|].
  split; [reflexivity|].
  split; [intros request xs ys Hxs Hys;
          exact (produces_functional _ _ Hxs _ Hys)|].
  split; [reflexivity|].
  split.
  - intros request1 request2 x y Hx Hy Hid.
    rewrite getAll_items in Hx. rewrite getAll_items in Hy.
    apply items_from_In in Hx, Hy.
    rewrite Hx, Hy, !item_name. now rewrite Hid.
  - intros request1 request2 xs ys x y Hxs Hys Hx Hy Hid.
    pose proof (produces_functional _ _ Hxs _
                  (getStream_produces self1 request1 context1)) as Exs.
    pose proof (produces_functional _ _ Hys _
                  (getStream_produces self2 request2 context2)) as Eys.
    subst xs ys.
    apply items_from_In in Hx, Hy.
    rewrite Hx, Hy, !item_name. now rewrite Hid.
Qed.

Lemma service_operations_deterministic_witness :
  ApiServer.getAll ApiServer.new (ApiRequest.mk 2) tt
  = ApiServer.getAll ApiServer.new (ApiRequest.mk 2) true /\
  Item.name (ApiServer.item 2) = Item.name (Item.mk 2 "name 2").
Proof.
  destruct (service_operations_deterministic
              unit bool ApiServer.new ApiServer.new tt true)
    as (_ & Hall & _ & _ & Hname & _).
  split.
  - apply (Hall (ApiRequest.mk 2)).
  - apply (Hname (ApiRequest.mk 2) (ApiRequest.mk 5)).
    + simpl. right. left. reflexivity.
    + simpl. right. left. reflexivity.
    + reflexivity.
Defined.

(** C7. For every length, the items one [getStream] call produces come in
    strictly increasing id order: consuming the generator with enough
    fuel gives a sequence in which, for all positions j < k, the item at
    j has a smaller id than the item at k. *)
Theorem getStream_ids_strictly_increasing :
  forall (Ctx : Type) (self : ApiServer.t) (context : Ctx) (length : Z)
         (fuel : nat),
    (Z.to_nat length < fuel)%nat ->
    exists xs,
      ApiServer.collect fuel
        (ApiServer.getStream self (ApiRequest.mk length) context) = Some xs /\
      forall (j k : nat) (a b : Item.t),
        (j < k)%nat ->
        nth_error xs j = Some a -> nth_error xs k = Some b ->
        Item.id a < Item.id b.
Proof.
  intros Ctx self context length fuel Hf.
  exists (items_from (Z.to_nat length) 1). split.
  - exact (getStream_collect self (ApiRequest.mk length) context fuel Hf).
  - intros j k a b Hjk Ha Hb.
    apply items_from_nth_inv in Ha, Hb.
    destruct Ha as [_ ->], Hb as [_ ->].
    rewrite !item_id. lia.
Qed.

Lemma getStream_ids_strictly_increasing_witness :
  (Z.to_nat 3 < 4)%nat /\
  exists xs,
    ApiServer.collect 4
      (ApiServer.getStream ApiServer.new (ApiRequest.mk 3) tt) = Some xs /\
    forall (j k : nat) (a b : Item.t),
      (j < k)%nat ->
      nth_error xs j = Some a -> nth_error xs k = Some b ->
      Item.id a < Item.id b.
Proof.
  split; [vm_compute; lia|].
  apply (getStream_ids_strictly_increasing unit ApiServer.new tt 3 4).
  vm_compute; lia.
Defined.

(** C10. [getAll] is monotone for prefixes: for 0 <= m <= n, the list of
    [getAll] for length m has m items and is exactly the first m items of
    the list of [getAll] for length n, which continues it; so every
    position below m holds an item, the same in both lists, whatever the
    length asked for. *)
Theorem getAll_prefix_monotone :
  forall (Ctx : Type) (self : ApiServer.t) (context : Ctx) (m n : Z),
    0 <= m <= n ->
    let short := Items.items (ApiServer.getAll self (ApiRequest.mk m) context) in
    let long := Items.items (ApiServer.getAll self (ApiRequest.mk n) context) in
    List.length short = Z.to_nat m /\
    short = firstn (Z.to_nat m) long /\
    (exists rest, long = (short ++ rest)%list) /\
    forall i : nat,
      (i < Z.to_nat m)%nat ->
      exists x, nth_error short i = Some x /\ nth_error long i = Some x.
Proof.
  intros Ctx self context m n Hmn short long. subst short long.
  rewrite !getAll_items. simpl ApiRequest.length.
  assert (Hfirst : items_from (Z.to_nat m) 1
                   = firstn (Z.to_nat m) (items_from (Z.to_nat n) 1)).
  { symmetry. apply items_from_firstn. lia. }
  split; [apply items_from_length|].
  split; [exact Hfirst|].
  split.
  - exists (skipn (Z.to_nat m) (items_from (Z.to_nat n) 1)).
    rewrite Hfirst at 1. symmetry. apply firstn_skipn.
  - intros i Hi. exists (ApiServer.item (1 + Z.of_nat i)).
    split; apply items_from_nth; lia.
Qed.

Lemma getAll_prefix_monotone_witness :
  0 <= 2 <= 5 /\
  let short := Items.items (ApiServer.getAll ApiServer.new (ApiRequest.mk 2) tt) in
  let long := Items.items (ApiServer.getAll ApiServer.new (ApiRequest.mk 5) tt) in
  List.length short = Z.to_nat 2 /\
  short = firstn (Z.to_nat 2) long /\
  (exists rest, long = (short ++ rest)%list) /\
  forall i : nat,
    (i < Z.to_nat 2)%nat ->
    exists x, nth_error short i = Some x /\ nth_error long i = Some x.
Proof.
  split; [lia|].
  apply (getAll_prefix_monotone unit ApiServer.new tt 2 5). lia.
Defined.

(** ** The client *)

(** Every type a field can be declared with holds the integers from 0 to
    2^31 - 1, and none holds an integer below -2^63 or from 2^64 on. *)
Lemma fits_small (ty : Pb.int_type) (v : Z) :
  0 <= v <= 2 ^ 31 - 1 -> Pb.fits ty v = true.
Proof.
  intros Hv. unfold Pb.fits. apply andb_true_intro.
  split; apply Z.leb_le; destruct ty; simpl; lia.
Qed.


Lemma new_ApiRequest_in_range {E : Type} {schema : Schema E} (length : Z) :
  Pb.fits length_type length = true ->
  new_ApiRequest length = Returned (ApiRequest.mk length).
Proof. intros H. unfold new_ApiRequest. now rewrite H. Qed.


Lemma client_getAll_in_range {E Stream : Type} {schema : Schema E}
      (self : ApiClient.t E Stream) (length : Z) :
  Pb.fits length_type length = true ->
  ApiClient.getAll self length
  = (response <- ApiStub.getAll (ApiClient.client self)
                                (ApiRequest.mk length) ;;
     Returned (Items.items response)).
Proof.
  intros H. unfold ApiClient.getAll.
  now rewrite new_ApiRequest_in_range.
Qed.

Lemma client_getStream_in_range {E Stream : Type} {schema : Schema E}
      (self : ApiClient.t E Stream) (length : Z) :
  Pb.fits length_type length = true ->
  ApiClient.getStream self length
  = ApiStub.getStream (ApiClient.client self) (ApiRequest.mk length).
Proof.
  intros H. unfold ApiClient.getStream.
  rewrite new_ApiRequest_in_range by exact H. simpl.
  now destruct (ApiStub.getStream _ _).
Qed.





(** ** The examples of the specification *)

Example getAll_3 :
  ApiClient.getAll
    (schema := schema_with Pb.int32)
    (ApiClient.mk (served_stub ApiServer.new tt)) 3
  = Returned [Item.mk 1 "name 1"; Item.mk 2 "name 2"; Item.mk 3 "name 3"].
Proof. reflexivity. Qed.

Example sayHello_Ada :
  ApiServer.sayHello ApiServer.new (HelloRequest.mk "Ada") tt
  = Hello.mk "Hello Ada!".
Proof. reflexivity. Qed.

Example sayHello_empty_and_special :
  ApiServer.sayHello ApiServer.new (HelloRequest.mk "") tt
  = Hello.mk "Hello !" /\
  ApiServer.sayHello ApiServer.new (HelloRequest.mk "<b>&{}!") tt
  = Hello.mk "Hello <b>&{}!!".
Proof. split; reflexivity. Qed.

Example getStream_2_next_by_next :
  let g := ApiServer.getStream ApiServer.new (ApiRequest.mk 2) tt in
  let '(x1, g1) := ApiServer.next g in
  let '(x2, g2) := ApiServer.next g1 in
  let '(x3, g3) := ApiServer.next g2 in
  let '(x4, g4) := ApiServer.next g3 in
  [x1; x2; x3; x4]
  = [Some (Item.mk 1 "name 1"); Some (Item.mk 2 "name 2"); None; None]
  /\ g4 = ApiServer.Finished.
Proof. split; reflexivity. Qed.

(** * Further properties of the code *)

(** ** Decimal text of integers *)

(** [str] never gives the same text for two integers. *)
Lemma str_inj (i j : Z) : Py.str i = Py.str j -> i = j.
Proof.
  assert (parse : forall z,
             NilZero.int_of_string (Py.str z) = Some (Z.to_int z)).
  { intros z. unfold Py.str. apply NilZero.isi.
    - destruct z as [|p|p]; simpl; try discriminate.
      intros [= H]. exact (DecimalPos.Unsigned.to_uint_nonnil p H).
    - destruct z as [|p|p]; simpl; try discriminate.
      intros [= H]. exact (DecimalPos.Unsigned.to_uint_nonnil p H). }
  intros H. apply DecimalZ.to_int_inj.
  pose proof (parse i) as Hi. rewrite H, parse in Hi. congruence.
Qed.

Lemma item_name_inj (i j : Z) :
  Item.name (ApiServer.item i) = Item.name (ApiServer.item j) -> i = j.
Proof.
  rewrite !item_name. intros H. apply str_inj.
  simpl in H. congruence.
Qed.

Lemma In_items_from (n : nat) (i : Z) (x : Item.t) :
  In x (items_from n i) <->
  i <= Item.id x < i + Z.of_nat n /\ x = ApiServer.item (Item.id x).
Proof.
  split.
  - intros H. split; [|exact (items_from_In n i x H)].
    apply In_nth_error in H. destruct H as [k Hk].
    apply items_from_nth_inv in Hk. destruct Hk as [Hlt ->].
    rewrite item_id. lia.
  - intros [Hb Hx]. rewrite Hx.
    apply nth_error_In with (n := Z.to_nat (Item.id x - i)).
    rewrite items_from_nth by lia. do 2 f_equal. lia.
Qed.

Lemma items_from_skipn (k : nat) :
  forall (n : nat) (i : Z),
    skipn k (items_from n i) = items_from (n - k) (i + Z.of_nat k).
Proof.
  induction k as [|k IH]; intros n i.
  - simpl. rewrite Nat.sub_0_r. f_equal. lia.
  - destruct n as [|n]; [reflexivity|].
    cbn [items_from skipn]. rewrite IH. cbn [Nat.sub]. f_equal. lia.
Qed.

Lemma items_from_NoDup_names (n : nat) (i : Z) :
  NoDup (map Item.name (items_from n i)).
Proof.
  revert i. induction n as [|n IH]; intros i; simpl; constructor.
  - intros H. apply in_map_iff in H. destruct H as (x & Hname & Hx).
    apply In_items_from in Hx. destruct Hx as [Hb Hx].
    rewrite Hx in Hname. apply item_name_inj in Hname. lia.
  - apply IH.
Qed.

Lemma items_from_NoDup_ids (n : nat) (i : Z) :
  NoDup (map Item.id (items_from n i)).
Proof.
  revert i. induction n as [|n IH]; intros i; simpl; constructor.
  - intros H. apply in_map_iff in H. destruct H as (x & Hid & Hx).
    apply In_items_from in Hx. lia.
  - apply IH.
Qed.

(** ** More on [getAll] *)

(** X1. For every integer length, negative or not, [getAll] returns
    max(0, length) items, and reading its list at a position i gives the
    item with id i + 1 and name "name " followed by the text of i + 1
    when i < length, and nothing (the position is out of range)
    otherwise. *)
Theorem getAll_count_and_index :
  forall (Ctx : Type) (self : ApiServer.t) (context : Ctx) (length : Z)
         (i : nat),
    let its :=
      Items.items (ApiServer.getAll self (ApiRequest.mk length) context) in
    Z.of_nat (List.length its) = Z.max 0 length /\
    nth_error its i =
    (if (Z.of_nat i <? length)%Z
     then Some (Item.mk (Z.of_nat i + 1) ("name " ++ Py.str (Z.of_nat i + 1)))
     else None).
Proof.
  intros Ctx self context length i its. subst its.
  rewrite getAll_items. simpl ApiRequest.length. split.
  - rewrite items_from_length. lia.
  - destruct (Z.ltb_spec (Z.of_nat i) length) as [Hlt | Hge].
    + rewrite items_from_nth by lia.
      f_equal. unfold ApiServer.item. rewrite fstring_two.
      f_equal; [lia | do 2 f_equal; lia].
    + apply nth_error_None. rewrite items_from_length. lia.
Qed.

(** X2. For every integer length, an item is in the list [getAll]
    returns exactly when its id lies between 1 and length and its name
    is "name " followed by the text of its id. *)
Theorem getAll_membership :
  forall (Ctx : Type) (self : ApiServer.t) (context : Ctx) (length : Z)
         (x : Item.t),
    In x (Items.items (ApiServer.getAll self (ApiRequest.mk length) context))
    <-> 1 <= Item.id x <= length /\
        Item.name x = "name " ++ Py.str (Item.id x).
Proof.
  intros Ctx self context length x.
  rewrite getAll_items. simpl ApiRequest.length.
  rewrite In_items_from. split.
  - intros [Hb Hx]. split; [lia|].
    rewrite Hx at 1. apply item_name.
  - intros [Hb Hname]. split; [lia|].
    destruct x as [xid xname]. simpl in *.
    unfold ApiServer.item. rewrite fstring_two. now subst xname.
Qed.

(** X3. The name of an item tells its id: two items of lists that
    [getAll] returned, for any two requests, that have the same name are
    the same item. *)
Theorem getAll_name_determines_item :
  forall (Ctx1 Ctx2 : Type) (self1 self2 : ApiServer.t)
         (context1 : Ctx1) (context2 : Ctx2)
         (request1 request2 : ApiRequest.t) (x y : Item.t),
    In x (Items.items (ApiServer.getAll self1 request1 context1)) ->
    In y (Items.items (ApiServer.getAll self2 request2 context2)) ->
    Item.name x = Item.name y ->
    x = y.
Proof.
  intros Ctx1 Ctx2 self1 self2 context1 context2 request1 request2 x y
         Hx Hy Hname.
  rewrite getAll_items in Hx. rewrite getAll_items in Hy.
  apply items_from_In in Hx, Hy.
  rewrite Hx, Hy in Hname. apply item_name_inj in Hname.
  rewrite Hx, Hy. now rewrite Hname.
Qed.

Lemma getAll_name_determines_item_witness :
  Item.mk 2 "name 2" = ApiServer.item 2.
Proof.
  apply (getAll_name_determines_item
           unit unit ApiServer.new ApiServer.new tt tt
           (ApiRequest.mk 2) (ApiRequest.mk 4)).
  - simpl. right. left. reflexivity.
  - simpl. right. left. reflexivity.
  - reflexivity.
Defined.

(** X4. In the list [getAll] returns, for every integer length, no name
    and no id occurs twice. *)
Theorem getAll_names_and_ids_distinct :
  forall (Ctx : Type) (self : ApiServer.t) (context : Ctx)
         (request : ApiRequest.t),
    let its := Items.items (ApiServer.getAll self request context) in
    NoDup (map Item.name its) /\ NoDup (map Item.id its).
Proof.
  intros Ctx self context request its. subst its.
  rewrite getAll_items. split.
  - apply items_from_NoDup_names.
  - apply items_from_NoDup_ids.
Qed.

(** ** More on the generator of [getStream] *)

Lemma take_suspended (k : nat) :
  forall (n : nat) (i : Z),
  exists g',
    take k (ApiServer.Suspended {| Py.cursor := i; Py.remaining := n |})
    = (firstn k (items_from n i), g') /\
    ApiServer.produces g' (skipn k (items_from n i)).
Proof.
  induction k as [|k IH]; intros n i.
  - eexists. split; [reflexivity|]. apply produces_suspended.
  - destruct n as [|n].
    + exists ApiServer.Finished. split; [reflexivity|].
      eapply ApiServer.produces_stop. reflexivity.
    + destruct (IH n (i + 1)) as (g' & Htake & Hrest).
      exists g'. split; [|exact Hrest].
      cbn [take]. rewrite next_suspended, Htake. reflexivity.
Qed.

(** X5. Once the generator of [getStream] has answered [StopIteration],
    it has returned for good: it is finished, every further [next]
    answers [StopIteration] again and leaves it finished, and nothing
    more can be read from it. The stream cannot be restarted. *)
Theorem generator_exhausted_for_good :
  forall (g g' : ApiServer.generator),
    ApiServer.next g = (None, g') ->
    g' = ApiServer.Finished /\
    ApiServer.next g' = (None, g') /\
    (forall k, take k g' = ([], g')) /\
    (forall xs, ApiServer.produces g' xs -> xs = []).
Proof.
  intros g g' Hnext.
  assert (Hfin : g' = ApiServer.Finished).
  { destruct g as [request | it |]; simpl in Hnext;
      unfold ApiServer.loop_turn in Hnext.
    - destruct (Py.next _) as [[i it']|]; congruence.
    - destruct (Py.next it) as [[i it']|]; congruence.
    - congruence. }
  subst g'. split; [reflexivity|]. split; [reflexivity|]. split.
  - intros [|k]; reflexivity.
  - intros xs Hxs. inversion Hxs as [g0 g0' Hn | g0 x g0' xs' Hn Hp];
      [reflexivity | discriminate].
Qed.

Lemma generator_exhausted_for_good_witness :
  ApiServer.Finished = ApiServer.Finished /\
  ApiServer.next ApiServer.Finished = (None, ApiServer.Finished) /\
  (forall k, take k ApiServer.Finished = ([], ApiServer.Finished)) /\
  (forall xs, ApiServer.produces ApiServer.Finished xs -> xs = []).
Proof.
  apply (generator_exhausted_for_good
           (ApiServer.Suspended {| Py.cursor := 3; Py.remaining := 0 |})
           ApiServer.Finished).
  reflexivity.
Defined.

(** X6. A consumer may stop after any number of items: for every request
    and every k, asking the generator of [getStream] for k items gives the
    first k items of the list [getAll] returns (all of them when there are
    fewer), and the generator is left producing exactly the items after
    those. Nothing is lost or repeated by reading the stream in two
    parts. *)
Theorem getStream_take_then_rest :
  forall (Ctx : Type) (self : ApiServer.t) (context : Ctx)
         (request : ApiRequest.t) (k : nat),
    let its := Items.items (ApiServer.getAll self request context) in
    exists g',
      take k (ApiServer.getStream self request context) = (firstn k its, g') /\
      ApiServer.produces g' (skipn k its).
Proof.
  intros Ctx self context request k its. subst its.
  rewrite getAll_items. unfold ApiServer.getStream.
  destruct k as [|k].
  - eexists. split; [reflexivity|].
    exact (getStream_produces self request context).
  - destruct (take_suspended (S k) (Z.to_nat (ApiRequest.length request)) 1)
      as (g' & Htake & Hrest).
    exists g'. split; [|exact Hrest].
    rewrite <- Htake. cbn [take]. now rewrite next_created.
Qed.

(** ** More on the client *)



(** X8. With a client initialised on a stub that reaches the service, for
    every length the [length] field can hold, [getStream] returns a
    generator and [getAll] a list, and the generator produces exactly
    that list: it is its only sequence, and consuming it with fuel above
    the length gives it. *)
Theorem client_getStream_produces_client_getAll :
  forall (E : Type) (schema : Schema E) (Ctx Channel : Type)
         (server : ApiServer.t) (context : Ctx)
         (insecure_channel : string -> Channel) (target : string)
         (length : Z),
    Pb.fits length_type length = true ->
    let served :=
      ApiClient.init insecure_channel
                     (fun _ => served_stub (E := E) server context) target in
    exists (g : ApiServer.generator) (its : list Item.t),
      ApiClient.getStream served length = Returned g /\
      ApiClient.getAll served length = Returned its /\
      ApiServer.produces g its /\
      (forall xs, ApiServer.produces g xs -> xs = its) /\
      (forall fuel, (Z.to_nat length < fuel)%nat ->
                    ApiServer.collect fuel g = Some its).
Proof.
  intros E schema Ctx Channel server context insecure_channel target length
         Hfits served.
  exists (ApiServer.getStream server (ApiRequest.mk length) context).
  exists (Items.items (ApiServer.getAll server (ApiRequest.mk length) context)).
  split; [now rewrite client_getStream_in_range by exact Hfits|].
  split; [now rewrite client_getAll_in_range by exact Hfits|].
  rewrite getAll_items.
  pose proof (getStream_produces server (ApiRequest.mk length) context) as Hp.
  split; [exact Hp|]. split.
  - intros xs Hxs. exact (produces_functional _ _ Hxs _ Hp).
  - intros fuel Hf. now apply getStream_collect.
Qed.

Lemma client_getStream_produces_client_getAll_witness :
  Pb.fits Pb.uint64 3 = true /\
  exists (g : ApiServer.generator) (its : list Item.t),
    ApiClient.getStream
      (schema := schema_with Pb.uint64)
      (ApiClient.mk (served_stub ApiServer.new tt)) 3 = Returned g /\
    ApiClient.getAll
      (schema := schema_with Pb.uint64)
      (ApiClient.mk (served_stub ApiServer.new tt)) 3 = Returned its /\
    ApiServer.produces g its /\
    (forall xs, ApiServer.produces g xs -> xs = its) /\
    (forall fuel, (Z.to_nat 3 < fuel)%nat ->
                  ApiServer.collect fuel g = Some its).
Proof.
  split; [reflexivity|].
  apply (client_getStream_produces_client_getAll
           string (schema_with Pb.uint64) unit unit ApiServer.new tt
           (fun _ => tt) "localhost:50051" 3).
  reflexivity.
Defined.

(** ** The page *)

(** X9. [home] has no handler of its own, so its outcome is that of its
    four steps in order. It returns a page exactly when [sayHello],
    [getAll] and [getStream] of the client all returned and the template,
    given their three results, rendered that page. It raises an error
    exactly when that error is the first failure among: [sayHello],
    then [getAll], then [getStream], then the rendering. *)
Theorem home_outcome :
  forall (E Stream Html : Type) (schema : Schema E)
         (render_template : string -> App.context Stream -> outcome E Html)
         (api : ApiClient.t E Stream),
    (forall page,
        App.home render_template api = Returned page <->
        exists name items items2,
          ApiClient.sayHello api "Gonzalo" = Returned name /\
          ApiClient.getAll api 10 = Returned items /\
          ApiClient.getStream api 5 = Returned items2 /\
          render_template "index.html" (App.mk name items items2)
          = Returned page) /\
    (forall e,
        App.home render_template api = Raised e <->
        ApiClient.sayHello api "Gonzalo" = Raised e \/
        exists name,
          ApiClient.sayHello api "Gonzalo" = Returned name /\
          (ApiClient.getAll api 10 = Raised e \/
           exists items,
             ApiClient.getAll api 10 = Returned items /\
             (ApiClient.getStream api 5 = Raised e \/
              exists items2,
                ApiClient.getStream api 5 = Returned items2 /\
                render_template "index.html" (App.mk name items items2)
                = Raised e))).
Proof.
  intros E Stream Html schema render_template api. unfold App.home.
  destruct (ApiClient.sayHello api "Gonzalo") as [name | e1];
    [destruct (ApiClient.getAll api 10) as [items | e2];
     [destruct (ApiClient.getStream api 5) as [items2 | e3]|]|];
    simpl; split.
  - intros page. split.
    + intros H. exists name, items, items2. auto.
    + intros (n & i & i2 & [= <-] & [= <-] & [= <-] & H). exact H.
  - intros e. split.
    + intros H. right. exists name. split; [reflexivity|].
      right. exists items. split; [reflexivity|].
      right. exists items2. split; [reflexivity | exact H].
    + intros [H | (n & [= <-] & [H | (i & [= <-] & [H | (i2 & [= <-] & H)])])];
        congruence.
  - intros page. split; [discriminate|].
    intros (n & i & i2 & _ & _ & H & _). discriminate.
  - intros e. split.
    + intros [= ->]. right. exists name. split; [reflexivity|].
      right. exists items. split; [reflexivity|]. left. reflexivity.
    + intros [H | (n & [= <-] & [H | (i & [= <-] & [H | (i2 & H & _)])])];
        congruence.
  - intros page. split; [discriminate|].
    intros (n & i & i2 & _ & H & _). discriminate.
  - intros e. split.
    + intros [= ->]. right. exists name. split; [reflexivity|].
      left. reflexivity.
    + intros [H | (n & [= <-] & [H | (i & H & _)])]; congruence.
  - intros page. split; [discriminate|].
    intros (n & i & i2 & H & _). discriminate.
  - intros e. split.
    + intros [= ->]. left. reflexivity.
    + intros [H | (n & H & _)]; congruence.
Qed.

(** X10. When the client of the page reaches the service, [home] is the
    rendering of "index.html" with: as [name], "Hello Gonzalo!"; as
    [items], ten items with ids 1 to 10; as [items2], a generator not yet
    started that produces the first five of those ten items. None of the
    three calls raises, so the page fails only if the rendering does. *)
Theorem home_with_service :
  forall (E Html : Type) (schema : Schema E) (Ctx Channel : Type)
         (server : ApiServer.t) (context : Ctx)
         (insecure_channel : string -> Channel) (target : string)
         (render_template :
            string -> App.context ApiServer.generator -> outcome E Html),
    let served :=
      ApiClient.init insecure_channel
                     (fun _ => served_stub (E := E) server context) target in
    exists c : App.context ApiServer.generator,
      App.home render_template served = render_template "index.html" c /\
      App.name c = "Hello Gonzalo!" /\
      map Item.id (App.items c) = [1; 2; 3; 4; 5; 6; 7; 8; 9; 10] /\
      Forall (fun x => Item.name x = "name " ++ Py.str (Item.id x))
             (App.items c) /\
      ApiServer.produces (App.items2 c) (firstn 5 (App.items c)).
Proof.
  intros E Html schema Ctx Channel server context insecure_channel target
         render_template served.
  assert (H10 : Pb.fits length_type 10 = true) by (apply fits_small; lia).
  assert (H5 : Pb.fits length_type 5 = true) by (apply fits_small; lia).
  exists (App.mk
            (Hello.message
               (ApiServer.sayHello server (HelloRequest.mk "Gonzalo") context))
            (Items.items
               (ApiServer.getAll server (ApiRequest.mk 10) context))
            (ApiServer.getStream server (ApiRequest.mk 5) context)).
  split.
  { unfold App.home.
    rewrite (client_getAll_in_range served 10 H10).
    rewrite (client_getStream_in_range served 5 H5).
    reflexivity. }
  split; [reflexivity|]. split; [reflexivity|].
  cbn [App.items App.items2]. rewrite getAll_items. split.
  - apply items_from_names.
  - simpl ApiRequest.length. rewrite items_from_firstn by (vm_compute; lia).
    exact (getStream_produces server (ApiRequest.mk 5) context).
Qed.

(** ** The loop of [getAll], one turn at a time *)

Lemma items_from_snoc (n : nat) :
  forall i : Z,
    items_from (S n) i
    = (items_from n i ++ [ApiServer.item (i + Z.of_nat n)])%list.
Proof.
  induction n as [|n IH]; intros i.
  - replace (i + Z.of_nat 0) with i by lia. reflexivity.
  - change (items_from (S (S n)) i)
      with (ApiServer.item i :: items_from (S n) (i + 1)).
    rewrite IH.
    replace (i + 1 + Z.of_nat n) with (i + Z.of_nat (S n)) by lia.
    reflexivity.
Qed.

(** X11. Asking [getAll] for one more item changes nothing but the end of
    the list: for every length >= 0, the list for length + 1 is the list
    for length followed by the single item with id length + 1 and name
    "name " followed by the text of length + 1. *)
Theorem getAll_one_more :
  forall (Ctx : Type) (self : ApiServer.t) (context : Ctx) (length : Z),
    0 <= length ->
    Items.items (ApiServer.getAll self (ApiRequest.mk (length + 1)) context)
    = (Items.items (ApiServer.getAll self (ApiRequest.mk length) context)
       ++ [Item.mk (length + 1) ("name " ++ Py.str (length + 1))])%list.
Proof.
  intros Ctx self context length Hlen.
  rewrite !getAll_items. simpl ApiRequest.length.
  replace (Z.to_nat (length + 1)) with (S (Z.to_nat length)) by lia.
  rewrite items_from_snoc.
  replace (1 + Z.of_nat (Z.to_nat length)) with (length + 1) by lia.
  unfold ApiServer.item. now rewrite fstring_two.
Qed.

Lemma getAll_one_more_witness :
  0 <= 2 /\
  Items.items (ApiServer.getAll ApiServer.new (ApiRequest.mk (2 + 1)) tt)
  = (Items.items (ApiServer.getAll ApiServer.new (ApiRequest.mk 2) tt)
     ++ [Item.mk (2 + 1) ("name " ++ Py.str (2 + 1))])%list.
Proof.
  split; [lia|].
  apply (getAll_one_more unit ApiServer.new tt 2). lia.
Defined.

(** ** The greeting *)

Lemma append_inj_r (suffix : string) :
  forall a b : string, a ++ suffix = b ++ suffix -> a = b.
Proof.
  assert (Hlen : forall a b : string,
             String.length (a ++ b)
             = (String.length a + String.length b)%nat).
  { induction a as [|c a IH]; intros b; simpl; [reflexivity|].
    now rewrite IH. }
  induction a as [|c a IH]; intros [|d b] H; simpl in H.
  - reflexivity.
  - apply (f_equal String.length) in H. simpl in H. rewrite Hlen in H. lia.
  - apply (f_equal String.length) in H. simpl in H. rewrite Hlen in H. lia.
  - injection H as -> H. f_equal. now apply IH.
Qed.

(** X12. The greeting tells the name: two requests that [sayHello]
    answers with the same message carry the same name. *)
Theorem sayHello_message_determines_name :
  forall (Ctx1 Ctx2 : Type) (self1 self2 : ApiServer.t)
         (context1 : Ctx1) (context2 : Ctx2)
         (request1 request2 : HelloRequest.t),
    Hello.message (ApiServer.sayHello self1 request1 context1)
    = Hello.message (ApiServer.sayHello self2 request2 context2) ->
    request1 = request2.
Proof.
  intros Ctx1 Ctx2 self1 self2 context1 context2 [name1] [name2] H.
  unfold ApiServer.sayHello in H. cbn [Hello.message HelloRequest.name] in H.
  rewrite !fstring_three in H.
  f_equal. apply (append_inj_r "!"). simpl in H. congruence.
Qed.

Lemma sayHello_message_determines_name_witness :
  HelloRequest.mk "Ada" = HelloRequest.mk ("A" ++ "da").
Proof.
  apply (sayHello_message_determines_name
           unit unit ApiServer.new ApiServer.new tt tt
           (HelloRequest.mk "Ada") (HelloRequest.mk ("A" ++ "da"))).
  reflexivity.
Defined.
